(** * Course storage gateway and admin registrations

    A shallow embedding of [edtech/courses/storage.py] and
    [edtech/courses/admin.py].

    The storage module is a thin wrapper around the Supabase client: the
    module builds one client when it is loaded and its two functions each
    issue one request through it.  The client library and the hosted service
    behind it are external, so they enter the development as an interface
    ([Supabase]) whose methods are state transformers over an arbitrary
    service state; every call that crosses the interface is recorded in a
    trace.  Python exceptions are the [Raise] outcome of a computation. *)

From Stdlib Require Import ZArith String List.
From stdpp Require Import gmap strings list fin_maps.

Local Open Scope Z_scope.
Local Open Scope string_scope.

(** ** Python values *)

Abbreviation bytes := (list Byte.byte).

(** The values that occur as arguments and inside the service's JSON
    responses. *)
Inductive value : Type :=
  | VNone
  | VBool (b : bool)
  | VInt (n : Z)
  | VStr (s : string).

#[global] Instance value_eq_dec : EqDecision value.
Proof. solve_decision. Defined.

Definition value_to_sum (v : value) : unit + (bool + (Z + string)) :=
  match v with
  | VNone => inl tt
  | VBool b => inr (inl b)
  | VInt n => inr (inr (inl n))
  | VStr s => inr (inr (inr s))
  end.

Definition value_of_sum (x : unit + (bool + (Z + string))) : value :=
  match x with
  | inl _ => VNone
  | inr (inl b) => VBool b
  | inr (inr (inl n)) => VInt n
  | inr (inr (inr s)) => VStr s
  end.

Lemma value_of_to_sum (v : value) : value_of_sum (value_to_sum v) = v.
Proof. by destruct v. Qed.

#[global] Instance value_countable : Countable value :=
  inj_countable' value_to_sum value_of_sum value_of_to_sum.

(** Python truth value testing: [None], [False], zero and the empty string
    are false, everything else is true. *)
Definition truthy (v : value) : bool :=
  match v with
  | VNone => false
  | VBool b => b
  | VInt n => negb (Z.eqb n 0)
  | VStr s => negb (String.eqb s "")
  end.

(** [a or b]: the left operand when it is true, otherwise the right one. *)
Definition py_or (a b : value) : value :=
  if truthy a then a else b.

(** [d.get(k)]: the value stored under [k], or [None]. *)
Definition dict_get (d : gmap string value) (k : string) : value :=
  default VNone (d !! k).

(** ** Exceptions and outcomes *)

Record exn : Type := Exn { exn_class : string; exn_message : string }.

Inductive outcome (A : Type) : Type :=
  | Return (a : A)
  | Raise (e : exn).
Arguments Return {A} a.
Arguments Raise {A} e.

(** ** The Supabase client interface *)

(** A client object, as [create_client] hands it out. *)
Record client : Type := Client {
  client_url : string;
  client_key : string;
  client_id : nat
}.

(** The three entry points of the client library the repository uses, over a
    service state [S]:
    - [create_client(url, key)];
    - [c.storage.from_(bucket).upload(path, data, file_options)];
    - [c.storage.from_(bucket).create_signed_url(path, expires_in)]. *)
Class Supabase (S : Type) : Type := {
  create_client : string → string → S → outcome client * S;
  storage_upload :
    client → value → string → bytes → gmap string value → S → outcome value * S;
  storage_create_signed_url :
    client → value → string → Z → S → outcome (gmap string value) * S
}.

(** What crosses the interface. *)
Inductive event : Type :=
  | EvCreateClient (url key : string)
  | EvUpload (c : client) (bucket : value) (path : string) (data : bytes)
      (file_options : gmap string value)
  | EvCreateSignedUrl (c : client) (bucket : value) (path : string)
      (expires_in : Z).

Record world (S : Type) : Type := World {
  remote : S;
  trace : list event
}.
Arguments World {S} remote trace.
Arguments remote {S} w.
Arguments trace {S} w.

(** ** Computations: state over the world, with exceptions *)

Definition M (S A : Type) : Type := world S → outcome A * world S.

Definition ret {S A} (a : A) : M S A := λ w, (Return a, w).

Definition bind {S A B} (c : M S A) (k : A → M S B) : M S B :=
  λ w, match c w with
       | (Return a, w') => k a w'
       | (Raise e, w') => (Raise e, w')
       end.

#[global] Instance M_ret {S} : MRet (M S) := λ A, @ret S A.
#[global] Instance M_bind {S} : MBind (M S) := λ A B k c, bind c k.

(** One call through the interface: run the library on the service state and
    append the call to the trace. *)
Definition external {S A} (ev : event) (f : S → outcome A * S) : M S A :=
  λ w, let '(r, s') := f (remote w) in (r, World s' (trace w ++ [ev])).

Section Calls.
Context {S : Type} `{!Supabase S}.

Definition call_create_client (url key : string) : M S client :=
  external (EvCreateClient url key) (create_client url key).

Definition call_upload (c : client) (bucket : value) (path : string)
    (data : bytes) (file_options : gmap string value) : M S value :=
  external (EvUpload c bucket path data file_options)
           (storage_upload c bucket path data file_options).

Definition call_create_signed_url (c : client) (bucket : value)
    (path : string) (expires_in : Z) : M S (gmap string value) :=
  external (EvCreateSignedUrl c bucket path expires_in)
           (storage_create_signed_url c bucket path expires_in).
End Calls.

(** ** [storage.py] *)

(** The three [django.conf.settings] entries the module reads. *)
Record Settings : Type := {
  SUPABASE_URL : string;
  SUPABASE_SERVICE_ROLE : string;
  SUPABASE_BUCKET : string
}.

(** The module's global name space: the one binding it makes besides its two
    functions. *)
Record storage_module : Type := { _client : client }.

Section Storage.
Context {S : Type} `{!Supabase S}.
Variable settings : Settings.

(** Executing the module body:
    [_client = create_client(settings.SUPABASE_URL,
                             settings.SUPABASE_SERVICE_ROLE)]. *)
Definition load_storage : M S storage_module :=
  c ← call_create_client (SUPABASE_URL settings)
                          (SUPABASE_SERVICE_ROLE settings);
  mret {| _client := c |}.

Variable globals : storage_module.

(** [def upload_bytes(path_in_bucket: str, data: bytes, bucket: str = None)].
    An omitted [bucket] argument is [None] here and takes the default of
    the signature. *)
Definition upload_bytes (path_in_bucket : string) (data : bytes)
    (bucket : option value) : M S string :=
  let bucket := default VNone bucket in
  let bucket := py_or bucket (VStr (SUPABASE_BUCKET settings)) in
  call_upload (_client globals) bucket path_in_bucket data
              {[ "upsert" := VBool true ]};;
  mret path_in_bucket.

(** [def signed_url(path_in_bucket: str, expires_sec: int = 60,
                    bucket: str = None) -> str]. *)
Definition signed_url (path_in_bucket : string) (expires_sec : option Z)
    (bucket : option value) : M S value :=
  let expires_sec := default 60%Z expires_sec in
  let bucket := default VNone bucket in
  let bucket := py_or bucket (VStr (SUPABASE_BUCKET settings)) in
  res ← call_create_signed_url (_client globals) bucket path_in_bucket
                               expires_sec;
  mret (py_or (dict_get res "signedURL") (dict_get res "signed_url")).
End Storage.

(** ** Observing a run *)

(** The calls a computation adds to the trace when it runs from [w]. *)
Definition new_events {S A} (c : M S A) (w : world S) : list event :=
  drop (length (trace w)) (trace (c w).2).

(** The bucket a storage request is addressed to. *)
Definition event_bucket (ev : event) : option value :=
  match ev with
  | EvCreateClient _ _ => None
  | EvUpload _ bucket _ _ _ => Some bucket
  | EvCreateSignedUrl _ bucket _ _ => Some bucket
  end.

(** The client a storage request goes through. *)
Definition event_client (ev : event) : option client :=
  match ev with
  | EvCreateClient _ _ => None
  | EvUpload c _ _ _ _ => Some c
  | EvCreateSignedUrl c _ _ _ => Some c
  end.

Definition is_create_client (ev : event) : bool :=
  match ev with
  | EvCreateClient _ _ => true
  | _ => false
  end.

(** The buckets the requests of a run are addressed to. *)
Definition buckets_used {S A} (c : M S A) (w : world S) : list value :=
  omap event_bucket (new_events c w).

(** A call is rejected by the wrapper itself when it raises without anything
    having been sent to the service. *)
Definition rejected {S A} (c : M S A) (w : world S) : Prop :=
  (∃ e, (c w).1 = Raise e) ∧ new_events c w = [].

(** ** A process that uses the module *)

(** The calls a process makes into the module after importing it. *)
Inductive op : Type :=
  | OpUpload (path_in_bucket : string) (data : bytes) (bucket : option value)
  | OpSignedUrl (path_in_bucket : string) (expires_sec : option Z)
      (bucket : option value).

Section Session.
Context {S : Type} `{!Supabase S}.
Variable settings : Settings.

(** One call; the caller sees the outcome and carries on either way. *)
Definition run_op (globals : storage_module) (o : op) (w : world S) : world S :=
  match o with
  | OpUpload p d b => (upload_bytes settings globals p d b w).2
  | OpSignedUrl p t b => (signed_url settings globals p t b w).2
  end.

Fixpoint run_ops (globals : storage_module) (os : list op) (w : world S)
    : world S :=
  match os with
  | [] => w
  | o :: os' => run_ops globals os' (run_op globals o w)
  end.

(** The import executes the module body once; when it raises, the module
    is not there to be called. *)
Definition session (os : list op) (w : world S)
    : option storage_module * world S :=
  match load_storage settings w with
  | (Return globals, w') => (Some globals, run_ops globals os w')
  | (Raise _, w') => (None, w')
  end.
End Session.

(** ** Two stand-ins for the service *)

(** An in-memory bucket store.  An upload to an occupied path is refused
    unless the [upsert] option is set; a signed URL is issued for objects
    that exist. *)
Record mem_state : Type := MemState {
  objects : gmap (value * string) bytes;
  clients : nat;
  online : bool
}.

Definition network_error : exn := Exn "ConnectError" "service unreachable".
Definition duplicate_error : exn := Exn "StorageApiError" "Duplicate".
Definition not_found_error : exn := Exn "StorageApiError" "Object not found".

Definition mem_create_client (url key : string) (s : mem_state)
    : outcome client * mem_state :=
  (Return (Client url key (clients s)),
   MemState (objects s) (Datatypes.S (clients s)) (online s)).

Definition mem_upload (c : client) (bucket : value) (path : string)
    (data : bytes) (file_options : gmap string value) (s : mem_state)
    : outcome value * mem_state :=
  if negb (online s) then (Raise network_error, s)
  else
    let stored := MemState (<[(bucket, path) := data]> (objects s))
                           (clients s) (online s) in
    match objects s !! (bucket, path) with
    | None => (Return VNone, stored)
    | Some _ =>
        if truthy (dict_get file_options "upsert")
        then (Return VNone, stored)
        else (Raise duplicate_error, s)
    end.

Definition mem_create_signed_url (c : client) (bucket : value) (path : string)
    (expires_in : Z) (s : mem_state)
    : outcome (gmap string value) * mem_state :=
  if negb (online s) then (Raise network_error, s)
  else
    match objects s !! (bucket, path) with
    | None => (Raise not_found_error, s)
    | Some _ =>
        (Return {[ "signedURL" := VStr ("https://storage.test/" ++ path) ]}, s)
    end.

#[global] Instance mem_supabase : Supabase mem_state := {
  create_client := mem_create_client;
  storage_upload := mem_upload;
  storage_create_signed_url := mem_create_signed_url
}.

(** What the in-memory store holds at [bucket]/[path]. *)
Definition mem_stored (s : mem_state) (bucket : value) (path : string)
    : option bytes :=
  objects s !! (bucket, path).

(** A scripted service: each request consumes the next canned reply. *)
Abbreviation script := (list (outcome (gmap string value))).

Definition script_exhausted : exn := Exn "AssertionError" "no reply scripted".

Definition scripted_create_client (url key : string) (s : script)
    : outcome client * script :=
  (Return (Client url key 0), s).

Definition scripted_upload (c : client) (bucket : value) (path : string)
    (data : bytes) (file_options : gmap string value) (s : script)
    : outcome value * script :=
  match s with
  | [] => (Raise script_exhausted, [])
  | Return _ :: s' => (Return VNone, s')
  | Raise e :: s' => (Raise e, s')
  end.

Definition scripted_create_signed_url (c : client) (bucket : value)
    (path : string) (expires_in : Z) (s : script)
    : outcome (gmap string value) * script :=
  match s with
  | [] => (Raise script_exhausted, [])
  | r :: s' => (r, s')
  end.

#[global] Instance scripted_supabase : Supabase script := {
  create_client := scripted_create_client;
  storage_upload := scripted_upload;
  storage_create_signed_url := scripted_create_signed_url
}.

(** The contract of the [upsert] option, for a service whose stored objects
    can be read off its state: an upload that is accepted with [upsert] set
    leaves the payload at [bucket]/[path], whatever was there before. *)
Definition honours_upsert {S} `{!Supabase S}
    (stored : S → value → string → option bytes) : Prop :=
  ∀ c bucket path data file_options s r s',
    file_options !! "upsert" = Some (VBool true) →
    storage_upload c bucket path data file_options s = (Return r, s') →
    stored s' bucket path = Some data.

(** ** [admin.py] *)

Module Admin.

(** The model classes the module imports. *)
Inductive model : Type :=
  | PDFDocument
  | Course
  | Lesson
  | LessonPDF
  | Enrollment.

#[global] Instance model_eq_dec : EqDecision model.
Proof. solve_decision. Defined.

(** The two inline base classes of [django.contrib.admin]. *)
Inductive inline_base : Type :=
  | TabularInline
  | StackedInline.

(** An inline class: its base and the attributes the module sets. *)
Record InlineClass : Type := {
  inline_base_class : inline_base;
  inline_model : model;
  extra : nat
}.

(** A [ModelAdmin] subclass: the attributes the module sets. *)
Record AdminClass : Type := {
  list_display : list string;
  inlines : list InlineClass
}.

(** [class LessonPDFInline(admin.TabularInline)]. *)
Definition LessonPDFInline : InlineClass := {|
  inline_base_class := TabularInline;
  inline_model := LessonPDF;
  extra := 1
|}.

(** [class LessonAdmin(admin.ModelAdmin)]. *)
Definition LessonAdmin : AdminClass := {|
  list_display := ["title"; "course"; "created_at"];
  inlines := [LessonPDFInline]
|}.

(** The site's registry, in registration order.  A model registered
    without an admin class is stored with [None] and gets the framework's
    plain [ModelAdmin]. *)
Abbreviation site := (list (model * option AdminClass)).

Definition already_registered : exn :=
  Exn "AlreadyRegistered" "The model is already registered".

(** [admin.site.register(model, admin_class=None)]: a model can be
    registered once. *)
Definition register (m : model) (admin_class : option AdminClass) (s : site)
    : outcome site :=
  if decide (m ∈ s.*1) then Raise already_registered
  else Return (s ++ [(m, admin_class)])%list.

Definition and_then {A B} (r : outcome A) (k : A → outcome B) : outcome B :=
  match r with
  | Return a => k a
  | Raise e => Raise e
  end.

(** The five statements at the end of the module body. *)
Definition admin_py (s : site) : outcome site :=
  and_then (register PDFDocument None s) (λ s,
  and_then (register Course None s) (λ s,
  and_then (register Lesson (Some LessonAdmin) s) (λ s,
  and_then (register LessonPDF None s) (λ s,
  register Enrollment None s)))).

End Admin.

(** The in-memory store behind a client factory that checks its
    configuration, as the client library does: an empty URL or key is
    refused. *)
Definition config_error (what : string) : exn :=
  Exn "SupabaseException" (what ++ " is required").

Definition strict_create_client (url key : string) (s : mem_state)
    : outcome client * mem_state :=
  if String.eqb url "" then (Raise (config_error "supabase_url"), s)
  else if String.eqb key "" then (Raise (config_error "supabase_key"), s)
  else mem_create_client url key s.

Definition strict_supabase : Supabase mem_state := {|
  create_client := strict_create_client;
  storage_upload := mem_upload;
  storage_create_signed_url := mem_create_signed_url
|}.

(** The contract of signing, for a service whose stored objects can be read
    off its state: when it answers a request with a positive expiry for an
    object that exists, the answer carries a URL under one of the two
    spellings of the key. *)
Definition signs_stored {S} `{!Supabase S}
    (stored : S → value → string → option bytes) : Prop :=
  ∀ c bucket path expires_in s res s',
    (0 < expires_in)%Z →
    is_Some (stored s bucket path) →
    storage_create_signed_url c bucket path expires_in s = (Return res, s') →
    ∃ u, u ≠ "" ∧
         (res !! "signedURL" = Some (VStr u) ∨
          (res !! "signedURL" = None ∧ res !! "signed_url" = Some (VStr u))).

(** The request a call stands for: its arguments, the bucket resolved
    against the settings, and the module's client. *)
Definition request_of (settings : Settings) (globals : storage_module)
    (o : op) : event :=
  match o with
  | OpUpload p d b =>
      EvUpload (_client globals)
               (py_or (default VNone b) (VStr (SUPABASE_BUCKET settings)))
               p d {[ "upsert" := VBool true ]}
  | OpSignedUrl p t b =>
      EvCreateSignedUrl (_client globals)
               (py_or (default VNone b) (VStr (SUPABASE_BUCKET settings)))
               p (default 60%Z t)
  end.

(** ** Fixtures *)

Definition demo_settings : Settings := {|
  SUPABASE_URL := "https://project.supabase.test";
  SUPABASE_SERVICE_ROLE := "service-role-key";
  SUPABASE_BUCKET := "pdfs"
|}.

Definition demo_globals : storage_module :=
  {| _client := Client "https://project.supabase.test" "service-role-key" 0 |}.

Definition demo_url : string := "https://storage.test/sign/pdfs/a.pdf?token=t".

(** An empty, reachable in-memory store. *)
Definition mem_empty : world mem_state := World (MemState ∅ 0 true) [].

(** * Properties *)

(** The bucket a call ends up using: [bucket or settings.SUPABASE_BUCKET],
    with an omitted argument read as [None]. *)
Abbreviation chosen_bucket settings bucket :=
  (py_or (default VNone bucket) (VStr (SUPABASE_BUCKET settings))).

(** ** Running the two functions *)

Section Runs.
Context {S : Type} `{!Supabase S}.
Variables (settings : Settings) (globals : storage_module).

Lemma new_events_app {A} (c : M S A) (w : world S) (evs : list event) :
  trace (c w).2 = (trace w ++ evs)%list → new_events c w = evs.
Proof. unfold new_events. intros ->. apply drop_app_length. Qed.

(** [upload_bytes] is one [upload] request; its outcome is the request's,
    with the response replaced by the path. *)
Lemma upload_bytes_run path data bucket (w : world S) :
  upload_bytes settings globals path data bucket w =
  let reply :=
    storage_upload (_client globals) (chosen_bucket settings bucket) path
                   data {[ "upsert" := VBool true ]} (remote w) in
  (match reply.1 with Return _ => Return path | Raise e => Raise e end,
   World reply.2
         (trace w ++ [EvUpload (_client globals)
                               (chosen_bucket settings bucket) path data
                               {[ "upsert" := VBool true ]}])).
Proof.
  unfold upload_bytes, call_upload, external, mbind, M_bind, bind, mret,
    M_ret, ret.
  cbn. by destruct (storage_upload _ _ _ _ _ _) as [[r|e] s'].
Qed.

(** [signed_url] is one [create_signed_url] request; its outcome is the
    request's, with the response dictionary replaced by the URL found in
    it. *)
Lemma signed_url_run path expires_sec bucket (w : world S) :
  signed_url settings globals path expires_sec bucket w =
  let reply :=
    storage_create_signed_url (_client globals)
      (chosen_bucket settings bucket) path (default 60%Z expires_sec)
      (remote w) in
  (match reply.1 with
   | Return res =>
       Return (py_or (dict_get res "signedURL") (dict_get res "signed_url"))
   | Raise e => Raise e
   end,
   World reply.2
         (trace w ++ [EvCreateSignedUrl (_client globals)
                        (chosen_bucket settings bucket) path
                        (default 60%Z expires_sec)])).
Proof.
  unfold signed_url, call_create_signed_url, external, mbind, M_bind, bind,
    mret, M_ret, ret.
  cbn. by destruct (storage_create_signed_url _ _ _ _ _) as [[r|e] s'].
Qed.

Lemma upload_bytes_events path data bucket (w : world S) :
  new_events (upload_bytes settings globals path data bucket) w =
  [EvUpload (_client globals) (chosen_bucket settings bucket) path data
            {[ "upsert" := VBool true ]}].
Proof. apply new_events_app. by rewrite upload_bytes_run. Qed.

Lemma signed_url_events path expires_sec bucket (w : world S) :
  new_events (signed_url settings globals path expires_sec bucket) w =
  [EvCreateSignedUrl (_client globals) (chosen_bucket settings bucket) path
                     (default 60%Z expires_sec)].
Proof. apply new_events_app. by rewrite signed_url_run. Qed.
End Runs.

(** ** Truth value testing *)

Lemma truthy_nonempty_str (u : string) : u ≠ "" → truthy (VStr u) = true.
Proof.
  intros Hu. cbn. destruct (String.eqb_spec u ""); [contradiction | done].
Qed.

Lemma py_or_true (a b : value) : truthy a = true → py_or a b = a.
Proof. unfold py_or. by intros ->. Qed.

Lemma py_or_false (a b : value) : truthy a = false → py_or a b = b.
Proof. unfold py_or. by intros ->. Qed.

Lemma dict_get_some (d : gmap string value) (k : string) (v : value) :
  d !! k = Some v → dict_get d k = v.
Proof. unfold dict_get. by intros ->. Qed.

Lemma dict_get_none (d : gmap string value) (k : string) :
  d !! k = None → dict_get d k = VNone.
Proof. unfold dict_get. by intros ->. Qed.

(** ** Parsing the signed-URL response *)

Example signed_url_camel_key :
  (signed_url demo_settings demo_globals "a.pdf" None None
     (World [Return {[ "signedURL" := VStr demo_url ]}] [])).1
  = Return (VStr demo_url).
Proof. vm_compute. reflexivity. Qed.

Example signed_url_no_key :
  (signed_url demo_settings demo_globals "a.pdf" None None
     (World [Return (∅ : gmap string value)] [])).1
  = Return VNone.
Proof. vm_compute. reflexivity. Qed.

(** C1.  When the client returns a response dictionary, [signed_url] returns
    the URL in it under either spelling of the key: the (non-empty) string
    under ["signedURL"], or, when that key is absent, whatever is under
    ["signed_url"]; when neither key is present it returns [None]. *)
Theorem signed_url_accepts_both_spellings {S} `{!Supabase S}
    (settings : Settings) (globals : storage_module) (path : string)
    (expires_sec : option Z) (bucket : option value) (w : world S)
    (res : gmap string value) (s' : S) :
  storage_create_signed_url (_client globals) (chosen_bucket settings bucket)
    path (default 60%Z expires_sec) (remote w) = (Return res, s') →
  (∀ u, u ≠ "" → res !! "signedURL" = Some (VStr u) →
     (signed_url settings globals path expires_sec bucket w).1
     = Return (VStr u)) ∧
  (∀ v, res !! "signedURL" = None → res !! "signed_url" = Some v →
     (signed_url settings globals path expires_sec bucket w).1 = Return v) ∧
  (res !! "signedURL" = None → res !! "signed_url" = None →
     (signed_url settings globals path expires_sec bucket w).1 = Return VNone).
Proof.
  intros Hcall. rewrite signed_url_run. cbn zeta. rewrite Hcall. cbn [fst].
  split; [|split].
  - intros u Hu Hcamel. rewrite (dict_get_some _ _ _ Hcamel).
    by rewrite py_or_true by by apply truthy_nonempty_str.
  - intros v Hcamel Hsnake. rewrite (dict_get_none _ _ Hcamel).
    by rewrite py_or_false, (dict_get_some _ _ _ Hsnake).
  - intros Hcamel Hsnake. rewrite (dict_get_none _ _ Hcamel).
    by rewrite py_or_false, (dict_get_none _ _ Hsnake).
Qed.

Lemma signed_url_accepts_both_spellings_witness :
  (signed_url demo_settings demo_globals "a.pdf" None None
     (World [Return {[ "signed_url" := VStr demo_url ]}] [])).1
  = Return (VStr demo_url).
Proof.
  refine (proj1 (proj2 (signed_url_accepts_both_spellings
            demo_settings demo_globals "a.pdf" None None
            (World [Return {[ "signed_url" := VStr demo_url ]}] [])
            {[ "signed_url" := VStr demo_url ]} [] _)) (VStr demo_url) _ _);
    vm_compute; reflexivity.
Defined.

(** C9.  The value under ["signedURL"] wins when it is true; any false value
    there (not only a missing key) gives way to the value under
    ["signed_url"].  In particular a response that maps ["signedURL"] to
    [None] or to the empty string and ["signed_url"] to a URL yields that
    URL. *)
Theorem signed_url_falls_back_on_falsy {S} `{!Supabase S}
    (settings : Settings) (globals : storage_module) (path : string)
    (expires_sec : option Z) (bucket : option value) (w : world S)
    (res : gmap string value) (s' : S) :
  storage_create_signed_url (_client globals) (chosen_bucket settings bucket)
    path (default 60%Z expires_sec) (remote w) = (Return res, s') →
  (truthy (dict_get res "signedURL") = true →
     (signed_url settings globals path expires_sec bucket w).1
     = Return (dict_get res "signedURL")) ∧
  (truthy (dict_get res "signedURL") = false →
     (signed_url settings globals path expires_sec bucket w).1
     = Return (dict_get res "signed_url")) ∧
  (∀ u, res !! "signedURL" = Some VNone ∨ res !! "signedURL" = Some (VStr "") →
     res !! "signed_url" = Some (VStr u) →
     (signed_url settings globals path expires_sec bucket w).1
     = Return (VStr u)).
Proof.
  intros Hcall. rewrite signed_url_run. cbn zeta. rewrite Hcall. cbn [fst].
  split; [|split].
  - intros Ht. by rewrite py_or_true.
  - intros Hf. by rewrite py_or_false.
  - intros u [Hcamel|Hcamel] Hsnake;
      rewrite (dict_get_some _ _ _ Hcamel), (dict_get_some _ _ _ Hsnake);
      reflexivity.
Qed.

Lemma signed_url_falls_back_on_falsy_witness :
  (signed_url demo_settings demo_globals "a.pdf" (Some 30%Z) None
     (World [Return {[ "signedURL" := VStr ""; "signed_url" := VStr demo_url ]}]
            [])).1
  = Return (VStr demo_url).
Proof.
  refine (proj2 (proj2 (signed_url_falls_back_on_falsy
            demo_settings demo_globals "a.pdf" (Some 30%Z) None
            (World [Return {[ "signedURL" := VStr "";
                              "signed_url" := VStr demo_url ]}] [])
            {[ "signedURL" := VStr ""; "signed_url" := VStr demo_url ]} [] _))
          demo_url _ _).
  - vm_compute; reflexivity.
  - right. vm_compute; reflexivity.
  - vm_compute; reflexivity.
Defined.

(** ** What [upload_bytes] returns *)

(** C5.  When the storage call succeeds, [upload_bytes] returns exactly the
    path it was given, for every path, payload and bucket; and it never
    returns anything else. *)
Theorem upload_bytes_returns_path {S} `{!Supabase S}
    (settings : Settings) (globals : storage_module) (path : string)
    (data : bytes) (bucket : option value) (w : world S) (r : value) (s' : S) :
  storage_upload (_client globals) (chosen_bucket settings bucket) path data
    {[ "upsert" := VBool true ]} (remote w) = (Return r, s') →
  (upload_bytes settings globals path data bucket w).1 = Return path ∧
  (∀ x, (upload_bytes settings globals path data bucket w).1 = Return x →
        x = path).
Proof.
  intros Hcall. rewrite upload_bytes_run. cbn zeta. rewrite Hcall. cbn [fst].
  split; [done | by intros x [= <-]].
Qed.

Lemma upload_bytes_returns_path_witness :
  (upload_bytes demo_settings demo_globals "lessons/1/a.pdf"
     [Byte.x25; Byte.x50; Byte.x44; Byte.x46] (Some (VStr "drafts"))
     mem_empty).1
  = Return "lessons/1/a.pdf".
Proof.
  refine (proj1 (upload_bytes_returns_path demo_settings demo_globals
            "lessons/1/a.pdf" [Byte.x25; Byte.x50; Byte.x44; Byte.x46]
            (Some (VStr "drafts")) mem_empty VNone
            (MemState {[ (VStr "drafts", "lessons/1/a.pdf") :=
                           [Byte.x25; Byte.x50; Byte.x44; Byte.x46] ]} 0 true)
            _)).
  vm_compute; reflexivity.
Defined.

(** ** The default expiry *)

(** C7.  Called without an expiry, [signed_url] asks for a signed URL that
    lives exactly 60 seconds: the call is the one made with [expires_sec=60],
    and the request that reaches the service carries 60. *)
Theorem signed_url_default_expiry {S} `{!Supabase S}
    (settings : Settings) (globals : storage_module) (path : string)
    (bucket : option value) (w : world S) :
  signed_url settings globals path None bucket w
  = signed_url settings globals path (Some 60%Z) bucket w ∧
  new_events (signed_url settings globals path None bucket) w
  = [EvCreateSignedUrl (_client globals) (chosen_bucket settings bucket) path
                       60%Z].
Proof. split; [reflexivity | apply signed_url_events]. Qed.

(** ** Which bucket a call uses *)

(** C2, as stated, fails: a bucket passed explicitly as the empty string is
    not used; the request goes to the configured default. *)
Lemma explicit_empty_bucket_not_used :
  buckets_used (upload_bytes demo_settings demo_globals "a.pdf" [Byte.x25]
                             (Some (VStr ""))) mem_empty
  = [VStr "pdfs"] ∧
  buckets_used (signed_url demo_settings demo_globals "a.pdf" None
                           (Some (VStr ""))) mem_empty
  = [VStr "pdfs"] ∧
  [VStr "pdfs"] ≠ [VStr ""].
Proof. repeat split; [vm_compute; reflexivity ..| discriminate]. Qed.

(** C2, amended.  Both functions address their request to the configured
    default bucket when no bucket is passed, and to the passed bucket when it
    is a true value (a non-empty string); a passed bucket that is false
    ([None], the empty string) is replaced by the default. *)
Theorem bucket_defaulting {S} `{!Supabase S}
    (settings : Settings) (globals : storage_module) (path : string)
    (data : bytes) (expires_sec : option Z) (w : world S) :
  buckets_used (upload_bytes settings globals path data None) w
  = [VStr (SUPABASE_BUCKET settings)] ∧
  buckets_used (signed_url settings globals path expires_sec None) w
  = [VStr (SUPABASE_BUCKET settings)] ∧
  (∀ b, truthy b = true →
     buckets_used (upload_bytes settings globals path data (Some b)) w = [b] ∧
     buckets_used (signed_url settings globals path expires_sec (Some b)) w
     = [b]) ∧
  (∀ b, truthy b = false →
     buckets_used (upload_bytes settings globals path data (Some b)) w
     = [VStr (SUPABASE_BUCKET settings)] ∧
     buckets_used (signed_url settings globals path expires_sec (Some b)) w
     = [VStr (SUPABASE_BUCKET settings)]).
Proof.
  unfold buckets_used. split; [|split; [|split]].
  - by rewrite upload_bytes_events.
  - by rewrite signed_url_events.
  - intros b Hb. rewrite upload_bytes_events, signed_url_events. cbn.
    by rewrite (py_or_true _ _ Hb).
  - intros b Hb. rewrite upload_bytes_events, signed_url_events. cbn.
    by rewrite (py_or_false _ _ Hb).
Qed.

Lemma bucket_defaulting_witness :
  truthy (VStr "drafts") = true ∧
  buckets_used (upload_bytes demo_settings demo_globals "a.pdf" [Byte.x25]
                             (Some (VStr "drafts"))) mem_empty
  = [VStr "drafts"].
Proof.
  split; [reflexivity |].
  apply (proj1 (proj2 (proj2 (bucket_defaulting demo_settings demo_globals
           "a.pdf" [Byte.x25] None mem_empty))) (VStr "drafts")
           eq_refl).
Defined.

(** ** No argument validation *)

(** C3, as stated, fails: an upload to the empty path and a signed-URL
    request with a non-positive expiry are not rejected by the wrapper; both
    reach the service, and the upload to the empty path returns normally. *)
Lemma empty_path_and_bad_ttl_reach_service :
  new_events (upload_bytes demo_settings demo_globals "" [Byte.x25] None)
             mem_empty
  = [EvUpload (_client demo_globals) (VStr "pdfs") "" [Byte.x25]
              {[ "upsert" := VBool true ]}] ∧
  (upload_bytes demo_settings demo_globals "" [Byte.x25] None mem_empty).1
  = Return "" ∧
  ¬ rejected (upload_bytes demo_settings demo_globals "" [Byte.x25] None)
             mem_empty ∧
  new_events (signed_url demo_settings demo_globals "a.pdf" (Some (-5)%Z) None)
             (World [Return {[ "signedURL" := VStr demo_url ]}] [])
  = [EvCreateSignedUrl (_client demo_globals) (VStr "pdfs") "a.pdf" (-5)%Z] ∧
  (signed_url demo_settings demo_globals "a.pdf" (Some (-5)%Z) None
              (World [Return {[ "signedURL" := VStr demo_url ]}] [])).1
  = Return (VStr demo_url) ∧
  ¬ rejected (signed_url demo_settings demo_globals "a.pdf" (Some (-5)%Z) None)
             (World [Return {[ "signedURL" := VStr demo_url ]}] []).
Proof.
  repeat split; try (vm_compute; reflexivity);
    intros [_ Hnone]; vm_compute in Hnone; discriminate.
Qed.

(** C3, amended.  Neither function enforces an invariant on its arguments:
    whatever the path (empty or not) and the expiry (positive or not), the
    call is not rejected by the wrapper but sent to the service as one
    request that carries the path and the expiry unchanged; the service
    alone decides. *)
Theorem no_argument_validation {S} `{!Supabase S}
    (settings : Settings) (globals : storage_module) (path : string)
    (data : bytes) (expires_sec : Z) (bucket : option value) (w : world S) :
  new_events (upload_bytes settings globals path data bucket) w
  = [EvUpload (_client globals) (chosen_bucket settings bucket) path data
              {[ "upsert" := VBool true ]}] ∧
  ¬ rejected (upload_bytes settings globals path data bucket) w ∧
  new_events (signed_url settings globals path (Some expires_sec) bucket) w
  = [EvCreateSignedUrl (_client globals) (chosen_bucket settings bucket) path
                       expires_sec] ∧
  ¬ rejected (signed_url settings globals path (Some expires_sec) bucket) w.
Proof.
  unfold rejected. rewrite upload_bytes_events, signed_url_events.
  repeat split; try reflexivity; by intros [_ ?].
Qed.

(** ** Overwriting uploads *)

Lemma mem_honours_upsert : honours_upsert mem_stored.
Proof.
  intros c bucket path data file_options s r s' Hopt.
  unfold storage_upload, mem_supabase, mem_upload, mem_stored.
  rewrite (dict_get_some _ _ _ Hopt). cbn [truthy].
  destruct (online s); cbn [negb]; [| discriminate].
  destruct (objects s !! (bucket, path)); intros [= _ <-]; cbn;
    apply lookup_insert_eq.
Qed.

(** The option matters: the in-memory store refuses a second upload to an
    occupied path when it is sent without it. *)
Example mem_upload_without_upsert_refused :
  (mem_upload (_client demo_globals) (VStr "pdfs") "a.pdf" [Byte.x02] ∅
     (MemState {[ (VStr "pdfs", "a.pdf") := [Byte.x01] ]} 0 true)).1
  = Raise duplicate_error.
Proof. vm_compute. reflexivity. Qed.

(** C4.  Every call of [upload_bytes] sends one upload request that carries
    the payload, the chosen bucket and the path, with the option
    ["upsert"] set to [True].  So, on a service that honours the option, a
    second successful upload to the same path replaces the object the first
    one left there. *)
Theorem upload_bytes_upserts {S} `{!Supabase S}
    (stored : S → value → string → option bytes)
    (settings : Settings) (globals : storage_module) (path : string)
    (data1 data2 : bytes) (bucket : option value) (w : world S) :
  new_events (upload_bytes settings globals path data1 bucket) w
  = [EvUpload (_client globals) (chosen_bucket settings bucket) path data1
              {[ "upsert" := VBool true ]}] ∧
  (honours_upsert stored →
   ∀ r1 w1 r2 w2,
     upload_bytes settings globals path data1 bucket w = (Return r1, w1) →
     upload_bytes settings globals path data2 bucket w1 = (Return r2, w2) →
     stored (remote w1) (chosen_bucket settings bucket) path = Some data1 ∧
     stored (remote w2) (chosen_bucket settings bucket) path = Some data2).
Proof.
  split; [apply upload_bytes_events |].
  intros Hup r1 w1 r2 w2. rewrite !upload_bytes_run. cbn zeta.
  destruct (storage_upload _ _ path data1 _ (remote w)) as [[v1|e1] s1] eqn:H1;
    cbn [fst snd]; [| discriminate].
  intros [= _ <-]. cbn [remote].
  destruct (storage_upload _ _ path data2 _ s1) as [[v2|e2] s2] eqn:H2;
    cbn [fst snd]; [| discriminate].
  intros [= _ <-]. cbn [remote].
  split; [eapply Hup, H1 | eapply Hup, H2]; apply lookup_singleton_eq.
Qed.

Lemma upload_bytes_upserts_witness :
  honours_upsert mem_stored ∧
  mem_stored
    (remote
       (upload_bytes demo_settings demo_globals "a.pdf" [Byte.x02] None
          (upload_bytes demo_settings demo_globals "a.pdf" [Byte.x01] None
             mem_empty).2).2)
    (VStr "pdfs") "a.pdf"
  = Some [Byte.x02].
Proof.
  split; [exact mem_honours_upsert |].
  refine (proj2 (proj2 (upload_bytes_upserts mem_stored demo_settings
            demo_globals "a.pdf" [Byte.x01] [Byte.x02] None mem_empty)
            mem_honours_upsert "a.pdf" _ "a.pdf" _ _ _));
    vm_compute; reflexivity.
Defined.

(** ** Failures *)

(** C6.  When the client call raises, the function raises the same exception
    and leaves the world as the failed call left it, having made that one
    call; whether or not it fails, each function makes exactly one client
    call; and an exception coming out of either function is always one the
    client call raised. *)
Theorem storage_errors_propagate {S} `{!Supabase S}
    (settings : Settings) (globals : storage_module) (path : string)
    (data : bytes) (expires_sec : option Z) (bucket : option value)
    (w : world S) :
  (∀ e s',
     storage_upload (_client globals) (chosen_bucket settings bucket) path
       data {[ "upsert" := VBool true ]} (remote w) = (Raise e, s') →
     upload_bytes settings globals path data bucket w
     = (Raise e,
        World s' (trace w ++ [EvUpload (_client globals)
                                (chosen_bucket settings bucket) path data
                                {[ "upsert" := VBool true ]}]))) ∧
  (∀ e s',
     storage_create_signed_url (_client globals)
       (chosen_bucket settings bucket) path (default 60%Z expires_sec)
       (remote w) = (Raise e, s') →
     signed_url settings globals path expires_sec bucket w
     = (Raise e,
        World s' (trace w ++ [EvCreateSignedUrl (_client globals)
                                (chosen_bucket settings bucket) path
                                (default 60%Z expires_sec)]))) ∧
  (∀ e,
     (upload_bytes settings globals path data bucket w).1 = Raise e →
     (storage_upload (_client globals) (chosen_bucket settings bucket) path
        data {[ "upsert" := VBool true ]} (remote w)).1 = Raise e) ∧
  (∀ e,
     (signed_url settings globals path expires_sec bucket w).1 = Raise e →
     (storage_create_signed_url (_client globals)
        (chosen_bucket settings bucket) path (default 60%Z expires_sec)
        (remote w)).1 = Raise e) ∧
  length (new_events (upload_bytes settings globals path data bucket) w)
  = 1%nat ∧
  length (new_events (signed_url settings globals path expires_sec bucket) w)
  = 1%nat.
Proof.
  rewrite upload_bytes_events, signed_url_events, upload_bytes_run,
    signed_url_run. cbn zeta.
  split; [|split; [|split; [|split; [|split]]]].
  - by intros e s' ->.
  - by intros e s' ->.
  - intros e. destruct (storage_upload _ _ _ _ _ _) as [[r|e'] s']; cbn;
      [discriminate | by intros [= ->]].
  - intros e.
    destruct (storage_create_signed_url _ _ _ _ _) as [[r|e'] s']; cbn;
      [discriminate | by intros [= ->]].
  - reflexivity.
  - reflexivity.
Qed.

Lemma storage_errors_propagate_witness :
  upload_bytes demo_settings demo_globals "a.pdf" [Byte.x01] None
    (World [Raise network_error] [])
  = (Raise network_error,
     World [] [EvUpload (_client demo_globals) (VStr "pdfs") "a.pdf"
                        [Byte.x01] {[ "upsert" := VBool true ]}]).
Proof.
  apply (proj1 (storage_errors_propagate demo_settings demo_globals "a.pdf"
                  [Byte.x01] None None (World [Raise network_error] []))
               network_error []).
  vm_compute; reflexivity.
Defined.

(** ** The shared client *)

Section Shared.
Context {S : Type} `{!Supabase S}.
Variable settings : Settings.

(** Loading the module is one [create_client] call with the configured URL
    and service-role key; its result becomes [_client]. *)
Lemma load_storage_run (w : world S) :
  load_storage settings w =
  let reply :=
    create_client (SUPABASE_URL settings) (SUPABASE_SERVICE_ROLE settings)
                  (remote w) in
  (match reply.1 with
   | Return c => Return {| _client := c |}
   | Raise e => Raise e
   end,
   World reply.2
         (trace w ++ [EvCreateClient (SUPABASE_URL settings)
                                     (SUPABASE_SERVICE_ROLE settings)])).
Proof.
  unfold load_storage, call_create_client, external, mbind, M_bind, bind,
    mret, M_ret, ret.
  cbn. by destruct (create_client _ _ _) as [[c|e] s'].
Qed.

Lemma run_op_trace (globals : storage_module) (o : op) (w : world S) :
  ∃ ev, trace (run_op settings globals o w) = (trace w ++ [ev])%list ∧
        event_client ev = Some (_client globals).
Proof.
  destruct o as [p d b | p t b]; cbn [run_op].
  - rewrite upload_bytes_run. by eexists.
  - rewrite signed_url_run. by eexists.
Qed.

(** However many calls follow, each adds one request, and every request goes
    through the module's client. *)
Lemma run_ops_trace (globals : storage_module) (os : list op) (w : world S) :
  ∃ evs, trace (run_ops settings globals os w) = (trace w ++ evs)%list ∧
         length evs = length os ∧
         Forall (λ ev, event_client ev = Some (_client globals)) evs.
Proof.
  revert w. induction os as [| o os IH]; intros w; cbn [run_ops].
  - exists []. by rewrite app_nil_r.
  - destruct (run_op_trace globals o w) as (ev & Hev & Hc).
    destruct (IH (run_op settings globals o w)) as (evs & Hevs & Hlen & Hall).
    exists (ev :: evs). rewrite Hevs, Hev, <- app_assoc. cbn.
    repeat split; [by rewrite Hlen | by constructor].
Qed.
End Shared.

Lemma client_events_not_create (c : client) (evs : list event) :
  Forall (λ ev, event_client ev = Some c) evs →
  List.filter is_create_client evs = [].
Proof.
  induction 1 as [| ev evs Hev _ IH]; [done |].
  cbn. destruct ev; [discriminate | done ..].
Qed.

(** C8.  Loading the module makes exactly one [create_client] call, with the
    configured service URL and service-role key, and binds its result to
    [_client].  In a process that then calls [upload_bytes] and [signed_url]
    any number of times, every request goes through that client, and the
    [create_client] call of the import stays the only one: no call builds
    another client, and the interface has no call that would close one. *)
Theorem single_shared_client {S} `{!Supabase S}
    (settings : Settings) (os : list op) (w : world S) :
  new_events (load_storage settings) w
  = [EvCreateClient (SUPABASE_URL settings) (SUPABASE_SERVICE_ROLE settings)] ∧
  (∀ globals w',
     load_storage settings w = (Return globals, w') →
     (create_client (SUPABASE_URL settings) (SUPABASE_SERVICE_ROLE settings)
                    (remote w)).1 = Return (_client globals) ∧
     (session settings os w).1 = Some globals ∧
     ∃ evs,
       trace (session settings os w).2
       = (trace w
          ++ EvCreateClient (SUPABASE_URL settings)
                            (SUPABASE_SERVICE_ROLE settings) :: evs)%list ∧
       length evs = length os ∧
       Forall (λ ev, event_client ev = Some (_client globals)) evs ∧
       List.filter is_create_client evs = []).
Proof.
  split.
  { apply new_events_app. by rewrite load_storage_run. }
  intros globals w' Hload. unfold session. rewrite Hload.
  rewrite load_storage_run in Hload. cbn zeta in Hload.
  destruct (create_client _ _ (remote w)) as [[c|e] s'] eqn:Hc;
    cbn [fst snd] in Hload; [| discriminate].
  injection Hload as <- <-. cbn [_client fst snd].
  split; [done | split; [done |]].
  destruct (run_ops_trace settings {| _client := c |} os
              (World s' (trace w ++ [EvCreateClient (SUPABASE_URL settings)
                                       (SUPABASE_SERVICE_ROLE settings)])))
    as (evs & Hevs & Hlen & Hall).
  exists evs. split; [| split; [done | split; [done |]]].
  - cbn [snd]. rewrite Hevs. cbn [trace]. by rewrite <- app_assoc.
  - by eapply client_events_not_create.
Qed.

Lemma single_shared_client_witness :
  (session demo_settings
     [OpUpload "a.pdf" [Byte.x01] None; OpSignedUrl "a.pdf" None None]
     mem_empty).1
  = Some demo_globals.
Proof.
  refine (proj1 (proj2 (proj2 (single_shared_client demo_settings
            [OpUpload "a.pdf" [Byte.x01] None; OpSignedUrl "a.pdf" None None]
            mem_empty) demo_globals
            (World (MemState ∅ 1 true)
               [EvCreateClient "https://project.supabase.test"
                               "service-role-key"]) _))).
  vm_compute; reflexivity.
Defined.

Example session_trace :
  trace (session demo_settings
           [OpUpload "a.pdf" [Byte.x01] None; OpSignedUrl "a.pdf" None None]
           mem_empty).2
  = [EvCreateClient "https://project.supabase.test" "service-role-key";
     EvUpload (_client demo_globals) (VStr "pdfs") "a.pdf" [Byte.x01]
              {[ "upsert" := VBool true ]};
     EvCreateSignedUrl (_client demo_globals) (VStr "pdfs") "a.pdf" 60%Z].
Proof. vm_compute. reflexivity. Qed.

(** ** The admin registrations *)

Example admin_py_twice_refused :
  Admin.and_then (Admin.admin_py []) Admin.admin_py
  = Raise Admin.already_registered.
Proof. vm_compute. reflexivity. Qed.

(** C10.  Run on an empty site, the admin module registers exactly five
    models, in this order: [PDFDocument], [Course], [Lesson], [LessonPDF] and
    [Enrollment].  [Lesson] is registered with [LessonAdmin], the others
    without an admin class.  [LessonAdmin] displays the columns
    ["title"], ["course"], ["created_at"] and has one inline,
    [LessonPDFInline], a tabular inline on [LessonPDF] with one extra blank
    form. *)
Theorem admin_registrations :
  Admin.admin_py []
  = Return [(Admin.PDFDocument, None);
            (Admin.Course, None);
            (Admin.Lesson, Some Admin.LessonAdmin);
            (Admin.LessonPDF, None);
            (Admin.Enrollment, None)] ∧
  (∀ s, Admin.admin_py [] = Return s →
        length s = 5%nat ∧ NoDup s.*1 ∧
        s !! 2%nat = Some (Admin.Lesson, Some Admin.LessonAdmin)) ∧
  Admin.list_display Admin.LessonAdmin = ["title"; "course"; "created_at"] ∧
  Admin.inlines Admin.LessonAdmin = [Admin.LessonPDFInline] ∧
  Admin.inline_base_class Admin.LessonPDFInline = Admin.TabularInline ∧
  Admin.inline_model Admin.LessonPDFInline = Admin.LessonPDF ∧
  Admin.extra Admin.LessonPDFInline = 1%nat.
Proof.
  assert (Hrun : Admin.admin_py []
                 = Return [(Admin.PDFDocument, None);
                           (Admin.Course, None);
                           (Admin.Lesson, Some Admin.LessonAdmin);
                           (Admin.LessonPDF, None);
                           (Admin.Enrollment, None)])
    by (vm_compute; reflexivity).
  split; [exact Hrun |]. split; [| by repeat split].
  intros s. rewrite Hrun. intros [= <-].
  repeat split. by apply (bool_decide_unpack _).
Qed.

(** * Further properties of [storage.py] *)

(** ** A failing import *)

(** X1.  When [create_client] raises while the module is loaded, the import
    raises the same exception after that one call; the module does not come
    into being, so whatever calls the process had in mind, nothing else
    reaches the service. *)
Theorem import_failure_propagates {S} `{!Supabase S}
    (settings : Settings) (os : list op) (w : world S) (e : exn) (s' : S) :
  create_client (SUPABASE_URL settings) (SUPABASE_SERVICE_ROLE settings)
                (remote w) = (Raise e, s') →
  load_storage settings w
  = (Raise e,
     World s' (trace w ++ [EvCreateClient (SUPABASE_URL settings)
                             (SUPABASE_SERVICE_ROLE settings)])) ∧
  session settings os w
  = (None,
     World s' (trace w ++ [EvCreateClient (SUPABASE_URL settings)
                             (SUPABASE_SERVICE_ROLE settings)])).
Proof.
  intros Hc. unfold session. rewrite load_storage_run. cbn zeta.
  by rewrite Hc.
Qed.

Lemma import_failure_propagates_witness :
  @session mem_state strict_supabase
     {| SUPABASE_URL := ""; SUPABASE_SERVICE_ROLE := "service-role-key";
        SUPABASE_BUCKET := "pdfs" |}
     [OpUpload "a.pdf" [Byte.x01] None] mem_empty
  = (None, World (MemState ∅ 0 true) [EvCreateClient "" "service-role-key"]).
Proof.
  apply (proj2 (@import_failure_propagates mem_state strict_supabase
                  {| SUPABASE_URL := ""; SUPABASE_SERVICE_ROLE := "service-role-key";
                     SUPABASE_BUCKET := "pdfs" |}
                  [OpUpload "a.pdf" [Byte.x01] None] mem_empty
                  (config_error "supabase_url") (MemState ∅ 0 true) eq_refl)).
Defined.

(** ** What is read when *)

(** X2.  The URL and the key are read once, when the module is loaded; the
    default bucket is read at every call.  With the settings changed after
    the import, a call without a bucket goes to the default bucket of the
    settings in force at the call, through the client that was built from
    the settings in force at the import. *)
Theorem client_bound_at_import_bucket_at_call {S} `{!Supabase S}
    (at_import at_call : Settings) (globals : storage_module)
    (w w1 w2 : world S) (path : string) (data : bytes)
    (expires_sec : option Z) :
  load_storage at_import w = (Return globals, w1) →
  (create_client (SUPABASE_URL at_import) (SUPABASE_SERVICE_ROLE at_import)
                 (remote w)).1 = Return (_client globals) ∧
  new_events (upload_bytes at_call globals path data None) w2
  = [EvUpload (_client globals) (VStr (SUPABASE_BUCKET at_call)) path data
              {[ "upsert" := VBool true ]}] ∧
  new_events (signed_url at_call globals path expires_sec None) w2
  = [EvCreateSignedUrl (_client globals) (VStr (SUPABASE_BUCKET at_call)) path
                       (default 60%Z expires_sec)].
Proof.
  rewrite load_storage_run. cbn zeta.
  destruct (create_client _ _ (remote w)) as [[c|e] s']; cbn [fst snd];
    [| discriminate].
  intros [= <- _]. cbn [_client].
  split; [done |]. by rewrite upload_bytes_events, signed_url_events.
Qed.

Lemma client_bound_at_import_bucket_at_call_witness :
  new_events
    (upload_bytes {| SUPABASE_URL := "https://other.supabase.test";
                     SUPABASE_SERVICE_ROLE := "other-key";
                     SUPABASE_BUCKET := "videos" |}
                  demo_globals "a.pdf" [Byte.x01] None)
    mem_empty
  = [EvUpload (Client "https://project.supabase.test" "service-role-key" 0)
              (VStr "videos") "a.pdf" [Byte.x01] {[ "upsert" := VBool true ]}].
Proof.
  refine (proj1 (proj2 (client_bound_at_import_bucket_at_call demo_settings
            {| SUPABASE_URL := "https://other.supabase.test";
               SUPABASE_SERVICE_ROLE := "other-key";
               SUPABASE_BUCKET := "videos" |}
            demo_globals mem_empty
            (World (MemState ∅ 1 true)
               [EvCreateClient "https://project.supabase.test"
                               "service-role-key"])
            mem_empty "a.pdf" [Byte.x01] None _))).
  vm_compute; reflexivity.
Defined.

(** ** More on the response *)

(** X3.  Whenever the client returns a response, [signed_url] returns a
    value; that value is true exactly when one of the two keys holds a true
    value, and a false result is always the value under ["signed_url"]
    ([None] when the key is missing), never the false value under
    ["signedURL"]. *)
Theorem signed_url_result_truthiness {S} `{!Supabase S}
    (settings : Settings) (globals : storage_module) (path : string)
    (expires_sec : option Z) (bucket : option value) (w : world S)
    (res : gmap string value) (s' : S) :
  storage_create_signed_url (_client globals) (chosen_bucket settings bucket)
    path (default 60%Z expires_sec) (remote w) = (Return res, s') →
  ∃ v,
    (signed_url settings globals path expires_sec bucket w).1 = Return v ∧
    truthy v = truthy (dict_get res "signedURL")
               || truthy (dict_get res "signed_url") ∧
    (truthy v = false → v = dict_get res "signed_url").
Proof.
  intros Hcall. rewrite signed_url_run. cbn zeta. rewrite Hcall. cbn [fst].
  eexists. split; [reflexivity |]. unfold py_or.
  destruct (truthy (dict_get res "signedURL")) eqn:Hcamel; cbn.
  - split; [done | congruence].
  - done.
Qed.

Lemma signed_url_result_truthiness_witness :
  ∃ v,
    (signed_url demo_settings demo_globals "a.pdf" None None
       (World [Return {[ "signedURL" := VNone; "signed_url" := VStr "" ]}]
              [])).1 = Return v ∧
    truthy v
    = truthy (dict_get {[ "signedURL" := VNone; "signed_url" := VStr "" ]}
                       "signedURL")
      || truthy (dict_get {[ "signedURL" := VNone; "signed_url" := VStr "" ]}
                          "signed_url") ∧
    (truthy v = false →
     v = dict_get {[ "signedURL" := VNone; "signed_url" := VStr "" ]}
                  "signed_url").
Proof.
  apply (signed_url_result_truthiness demo_settings demo_globals "a.pdf" None
           None
           (World [Return {[ "signedURL" := VNone; "signed_url" := VStr "" ]}]
                  [])
           {[ "signedURL" := VNone; "signed_url" := VStr "" ]} []).
  vm_compute; reflexivity.
Defined.

(** X4.  Only the two keys count.  Two responses that agree on
    ["signedURL"] and on ["signed_url"] give the same result, whatever else
    they carry; a URL that comes under any other spelling is not found. *)
Theorem signed_url_ignores_other_keys {S} `{!Supabase S}
    (settings : Settings) (globals : storage_module) (path : string)
    (expires_sec : option Z) (bucket : option value) (w1 w2 : world S)
    (res1 res2 : gmap string value) (s1 s2 : S) :
  storage_create_signed_url (_client globals) (chosen_bucket settings bucket)
    path (default 60%Z expires_sec) (remote w1) = (Return res1, s1) →
  storage_create_signed_url (_client globals) (chosen_bucket settings bucket)
    path (default 60%Z expires_sec) (remote w2) = (Return res2, s2) →
  res1 !! "signedURL" = res2 !! "signedURL" →
  res1 !! "signed_url" = res2 !! "signed_url" →
  (signed_url settings globals path expires_sec bucket w1).1
  = (signed_url settings globals path expires_sec bucket w2).1.
Proof.
  intros H1 H2 Hcamel Hsnake. rewrite !signed_url_run. cbn zeta.
  rewrite H1, H2. cbn [fst]. unfold dict_get. by rewrite Hcamel, Hsnake.
Qed.

Lemma signed_url_ignores_other_keys_witness :
  (signed_url demo_settings demo_globals "a.pdf" None None
     (World [Return {[ "signedUrl" := VStr demo_url ]}] [])).1
  = (signed_url demo_settings demo_globals "a.pdf" None None
       (World [Return (∅ : gmap string value)] [])).1.
Proof.
  refine (signed_url_ignores_other_keys demo_settings demo_globals "a.pdf"
            None None
            (World [Return {[ "signedUrl" := VStr demo_url ]}] [])
            (World [Return (∅ : gmap string value)] [])
            {[ "signedUrl" := VStr demo_url ]} ∅ [] [] _ _ _ _);
    vm_compute; reflexivity.
Defined.

(** ** Upload, then sign *)

Lemma mem_signs_stored : signs_stored mem_stored.
Proof.
  intros c bucket path expires_in s res s' _ [d Hd].
  unfold storage_create_signed_url, mem_supabase, mem_create_signed_url.
  unfold mem_stored in Hd. rewrite Hd.
  destruct (online s); cbn [negb]; [| discriminate].
  intros [= <- _]. exists ("https://storage.test/" ++ path).
  split; [discriminate |]. left. apply lookup_singleton_eq.
Qed.

(** X5.  The two functions resolve the bucket in the same way, so the path
    [upload_bytes] returns can be handed to [signed_url] with the same bucket
    argument: the signing request names the bucket and path the payload was
    stored under.  On a service that honours [upsert] and signs what it
    stores, signing a fresh upload with a positive expiry returns, unless the
    request fails, a non-empty URL. *)
Theorem fresh_upload_can_be_signed {S} `{!Supabase S}
    (stored : S → value → string → option bytes)
    (settings : Settings) (globals : storage_module) (path : string)
    (data : bytes) (bucket : option value) (expires_sec : option Z)
    (w w1 : world S) (returned : string) (v : value) :
  honours_upsert stored →
  signs_stored stored →
  (0 < default 60 expires_sec)%Z →
  upload_bytes settings globals path data bucket w = (Return returned, w1) →
  (signed_url settings globals returned expires_sec bucket w1).1 = Return v →
  stored (remote w1) (chosen_bucket settings bucket) returned = Some data ∧
  new_events (signed_url settings globals returned expires_sec bucket) w1
  = [EvCreateSignedUrl (_client globals) (chosen_bucket settings bucket) path
                       (default 60%Z expires_sec)] ∧
  ∃ u, u ≠ "" ∧ v = VStr u.
Proof.
  intros Hup Hsign Httl. rewrite upload_bytes_run. cbn zeta.
  destruct (storage_upload _ _ path data _ (remote w)) as [[r|e] s1] eqn:Hcall;
    cbn [fst snd]; [| discriminate].
  intros [= <- <-]. cbn [remote].
  assert (Hstored : stored s1 (chosen_bucket settings bucket) path = Some data)
    by (eapply Hup, Hcall; apply lookup_singleton_eq).
  rewrite signed_url_events, signed_url_run. cbn zeta. cbn [remote].
  destruct (storage_create_signed_url _ _ path _ s1) as [[res|e] s2] eqn:Hres;
    cbn [fst snd]; [| discriminate].
  intros [= <-]. split; [exact Hstored |]. split; [reflexivity |].
  destruct (Hsign _ _ _ _ _ _ _ Httl (mk_is_Some _ _ Hstored) Hres)
    as (u & Hu & Hkeys).
  exists u. split; [exact Hu |].
  destruct Hkeys as [Hcamel | [Hcamel Hsnake]].
  - rewrite (dict_get_some _ _ _ Hcamel).
    by rewrite py_or_true by by apply truthy_nonempty_str.
  - rewrite (dict_get_none _ _ Hcamel), (dict_get_some _ _ _ Hsnake).
    by rewrite py_or_false.
Qed.

Lemma fresh_upload_can_be_signed_witness :
  (signed_url demo_settings demo_globals "a.pdf" (Some 300%Z) None
     (upload_bytes demo_settings demo_globals "a.pdf" [Byte.x01] None
                   mem_empty).2).1
  = Return (VStr "https://storage.test/a.pdf") ∧
  ∃ u, u ≠ "" ∧ VStr "https://storage.test/a.pdf" = VStr u.
Proof.
  split; [vm_compute; reflexivity |].
  refine (proj2 (proj2 (fresh_upload_can_be_signed mem_stored demo_settings
            demo_globals "a.pdf" [Byte.x01] None (Some 300%Z) mem_empty
            (upload_bytes demo_settings demo_globals "a.pdf" [Byte.x01] None
                          mem_empty).2
            "a.pdf" (VStr "https://storage.test/a.pdf")
            mem_honours_upsert mem_signs_stored _ _ _)));
    vm_compute; reflexivity.
Defined.

(** ** Resolving the bucket *)

Lemma py_or_idempotent (a b : value) : py_or (py_or a b) b = py_or a b.
Proof.
  unfold py_or. destruct (truthy a) eqn:Ha; [by rewrite Ha |].
  by destruct (truthy b).
Qed.

(** X6.  Passing [None] for the bucket is the same call as leaving the
    argument out, and passing back the bucket a call resolved to is the same
    call again: in both functions the outcome and the request are
    unchanged. *)
Theorem bucket_resolution_stable {S} `{!Supabase S}
    (settings : Settings) (globals : storage_module) (path : string)
    (data : bytes) (expires_sec : option Z) (bucket : option value)
    (w : world S) :
  upload_bytes settings globals path data (Some VNone) w
  = upload_bytes settings globals path data None w ∧
  signed_url settings globals path expires_sec (Some VNone) w
  = signed_url settings globals path expires_sec None w ∧
  upload_bytes settings globals path data
               (Some (chosen_bucket settings bucket)) w
  = upload_bytes settings globals path data bucket w ∧
  signed_url settings globals path expires_sec
             (Some (chosen_bucket settings bucket)) w
  = signed_url settings globals path expires_sec bucket w.
Proof.
  split; [reflexivity | split; [reflexivity |]].
  rewrite !upload_bytes_run, !signed_url_run. cbn zeta.
  change (default VNone (Some (chosen_bucket settings bucket)))
    with (chosen_bucket settings bucket).
  by rewrite !py_or_idempotent.
Qed.

(** ** A sequence of calls *)

(** X7.  Calls are neither retried, cached, merged nor skipped: a sequence of
    calls sends exactly one request per call, in the order of the calls, and
    each request is fixed by the arguments of its call alone, whatever the
    service answered to the calls before it, failures included. *)
Theorem one_request_per_call_in_order {S} `{!Supabase S}
    (settings : Settings) (globals : storage_module) (os : list op)
    (w : world S) :
  trace (run_ops settings globals os w)
  = (trace w ++ map (request_of settings globals) os)%list.
Proof.
  revert w. induction os as [| o os IH]; intros w; cbn [run_ops map].
  - by rewrite app_nil_r.
  - rewrite IH. destruct o as [p d b | p t b]; cbn [run_op request_of].
    + rewrite upload_bytes_run. cbn. by rewrite <- app_assoc.
    + rewrite signed_url_run. cbn. by rewrite <- app_assoc.
Qed.

Example failed_call_does_not_stop_the_next :
  trace (run_ops demo_settings demo_globals
           [OpSignedUrl "missing.pdf" None None;
            OpSignedUrl "missing.pdf" None None]
           mem_empty)
  = [EvCreateSignedUrl (_client demo_globals) (VStr "pdfs") "missing.pdf" 60%Z;
     EvCreateSignedUrl (_client demo_globals) (VStr "pdfs") "missing.pdf" 60%Z].
Proof. vm_compute. reflexivity. Qed.
